(** * sx: nested [database/sql] transactions

    A shallow embedding of [sx.go]: the three interfaces ([Beginner],
    [Executor], [Transactor]), the three wrapper types ([dbTransactor],
    [nestableTransactor], [nestedTransactor]), the factory [NewTransactor]
    and the orchestrator [Transaction].

    Go code runs against a database that the package does not own.  The
    database is modelled by its history: the list of calls that reached the
    [database/sql] handles ([*sql.DB] and [*sql.Tx]) together with what they
    returned.  What a call returns is decided by an environment [Env], a
    function of the history so far, so that every theorem holds for every
    behaviour of the database.

    Besides the history the state carries an observation log of the method
    calls made on interface values (wrappers included), so that statements
    such as "Commit is never called" can be written down even when the
    method called is a no-op.

    Conventions:
    - a Go [error] is [option Err], [None] being [nil];
    - a Go [interface{}] (the operand of [panic], the result of [recover])
      is [option Value], [None] being [nil];
    - a Go computation is a function from the state to an outcome (normal
      return or panic in flight) and a new state;
    - the [database/sql] methods return to their caller (they report
      failure through their [error] result), and pointers to wrappers are
      not nil. *)

From Stdlib Require Import List String Bool Arith Lia.
Import ListNotations.
Local Open Scope string_scope.
Local Open Scope list_scope.

(** ** Values *)

(** Identity of a [*sql.DB] and of a [*sql.Tx] (the pointer). *)
Definition DB := nat.
Definition Tx := nat.

(** A non-nil Go error value, and the [error] interface. *)
Definition Err := string.
Definition error := option Err.

(** Non-nil values that may travel in an [interface{}]. *)
Inductive Value :=
| V_string (s : string)
| V_error (e : Err)
| V_runtimeError (msg : string).

Definition any := option Value.

(** A value of a type declared outside the package, identified by the name
    [%T] prints for it. *)
Definition User := string.

(** ** The three interfaces *)

(** The values of the package's own types that implement [Transactor]:
    [&dbTransactor{db}], [&nestableTransactor{tx}], [&nestedTransactor{tx}]. *)
Inductive Transactor :=
| dbTransactor (db : DB)
| nestableTransactor (tx : Tx)
| nestedTransactor (tx : Tx).

(** A value of interface type [Beginner], by dynamic type: [*sql.DB], one of
    the wrappers (a [Transactor] converts to a [Beginner]), a foreign type
    with a [Begin] method, or the nil interface.  [*sql.Tx] has no [Begin]
    method and is not a [Beginner]. *)
Inductive Beginner :=
| B_sqlDB (db : DB)
| B_Transactor (t : Transactor)
| B_user (u : User)
| B_nil.

(** A value of interface type [Executor], by dynamic type. *)
Inductive Executor :=
| E_sqlDB (db : DB)
| E_sqlTx (tx : Tx)
| E_Transactor (t : Transactor)
| E_user (u : User)
| E_nil.

Coercion B_Transactor : Transactor >-> Beginner.
Coercion E_Transactor : Transactor >-> Executor.

(** ** The database and the state *)

(** A call that reached a [database/sql] handle, with its result. *)
Inductive PhysEvent :=
| DB_Begin (db : DB) (tx : Tx) (err : error)
| DB_Exec (db : DB) (query : string) (err : error)
| Tx_Exec (tx : Tx) (query : string) (err : error)
| Tx_Commit (tx : Tx) (err : error)
| Tx_Rollback (tx : Tx) (err : error).

Definition History := list PhysEvent.

(** A method call on an interface value, as the caller wrote it. *)
Inductive Call :=
| Call_Begin (b : Beginner)
| Call_Exec (t : Transactor) (query : string)
| Call_Commit (t : Transactor)
| Call_Rollback (t : Transactor).

Record State := mkState {
  phys : History;      (* oldest first *)
  calls : list Call    (* oldest first *)
}.

(** How a Go call ends. *)
Inductive Outcome (A : Type) :=
| Returned (a : A)
| Panicked (r : any).
Arguments Returned {A} a.
Arguments Panicked {A} r.

Definition M (A : Type) : Type := State -> Outcome A * State.

Definition ret {A} (a : A) : M A := fun s => (Returned a, s).

Definition bind {A B} (m : M A) (k : A -> M B) : M B :=
  fun s =>
    match m s with
    | (Returned a, s') => k a s'
    | (Panicked r, s') => (Panicked r, s')
    end.

Notation "x <- m ;; k" := (bind m (fun x => k))
  (at level 61, m at next level, right associativity).
Notation "m ;;; k" := (bind m (fun _ => k))
  (at level 61, right associativity).

(** What lies outside the package. *)
Record Env := mkEnv {
  (* GODEBUG panicnil=1, the behaviour of every Go before 1.21:
     [panic(nil)] keeps nil as the panic value. *)
  panicnil : bool;
  sql_DB_Begin_result : DB -> History -> Tx * error;
  sql_DB_Exec_result : DB -> string -> History -> error;
  sql_Tx_Exec_result : Tx -> string -> History -> error;
  sql_Tx_Commit_result : Tx -> History -> error;
  sql_Tx_Rollback_result : Tx -> History -> error;
  (* [Begin] of a foreign type: any Go code. *)
  user_Begin : User -> M (Tx * error)
}.

Definition observe (c : Call) : M unit :=
  fun s => (Returned tt, mkState (phys s) (calls s ++ [c])).

(** Go's [panic(v)]. *)
Definition PanicNilError : Value :=
  V_runtimeError "panic called with nil argument (obsolete and disabled by default)".

Definition go_panic {A} (env : Env) (v : any) : M A :=
  fun s =>
    match v with
    | None => if panicnil env then (Panicked None, s)
              else (Panicked (Some PanicNilError), s)
    | Some _ => (Panicked v, s)
    end.

(** The panic of a method call on, or a field access through, nil. *)
Definition nil_dereference : Value :=
  V_runtimeError "invalid memory address or nil pointer dereference".

(** ** [database/sql] *)

Section Sx.

Variable env : Env.

Definition sql_DB_Begin (db : DB) : M (Tx * error) :=
  fun s =>
    let r := sql_DB_Begin_result env db (phys s) in
    (Returned r, mkState (phys s ++ [DB_Begin db (fst r) (snd r)]) (calls s)).

Definition sql_DB_Exec (db : DB) (q : string) : M error :=
  fun s =>
    let r := sql_DB_Exec_result env db q (phys s) in
    (Returned r, mkState (phys s ++ [DB_Exec db q r]) (calls s)).

Definition sql_Tx_Exec (tx : Tx) (q : string) : M error :=
  fun s =>
    let r := sql_Tx_Exec_result env tx q (phys s) in
    (Returned r, mkState (phys s ++ [Tx_Exec tx q r]) (calls s)).

Definition sql_Tx_Commit (tx : Tx) : M error :=
  fun s =>
    let r := sql_Tx_Commit_result env tx (phys s) in
    (Returned r, mkState (phys s ++ [Tx_Commit tx r]) (calls s)).

Definition sql_Tx_Rollback (tx : Tx) : M error :=
  fun s =>
    let r := sql_Tx_Rollback_result env tx (phys s) in
    (Returned r, mkState (phys s ++ [Tx_Rollback tx r]) (calls s)).

(** ** Methods of the wrappers

    [dbTransactor] embeds [*sql.DB]: [Begin] and [Exec] are promoted from
    it, [Commit] and [Rollback] are its own.  [nestableTransactor] embeds
    [*sql.Tx]: [Exec], [Commit] and [Rollback] are promoted, [Begin] is its
    own.  [nestedTransactor] embeds [*sql.Tx]: [Exec] and [Rollback] are
    promoted, [Begin] and [Commit] are its own. *)

Definition Transactor_Begin (t : Transactor) : M (Tx * error) :=
  match t with
  | dbTransactor db => sql_DB_Begin db
  | nestableTransactor tx => ret (tx, None)
  | nestedTransactor tx => ret (tx, None)
  end.

Definition Begin (b : Beginner) : M (Tx * error) :=
  observe (Call_Begin b) ;;;
  match b with
  | B_sqlDB db => sql_DB_Begin db
  | B_Transactor t => Transactor_Begin t
  | B_user u => user_Begin env u
  | B_nil => fun s => (Panicked (Some nil_dereference), s)
  end.

Definition Commit (t : Transactor) : M error :=
  observe (Call_Commit t) ;;;
  match t with
  | dbTransactor _ => ret None
  | nestableTransactor tx => sql_Tx_Commit tx
  | nestedTransactor _ => ret None
  end.

Definition Rollback (t : Transactor) : M error :=
  observe (Call_Rollback t) ;;;
  match t with
  | dbTransactor _ => ret None
  | nestableTransactor tx => sql_Tx_Rollback tx
  | nestedTransactor tx => sql_Tx_Rollback tx
  end.

(** [Exec]; [Query] and [QueryRow] are promoted the same way and no
    property below depends on them. *)
Definition Exec (t : Transactor) (q : string) : M error :=
  observe (Call_Exec t q) ;;;
  match t with
  | dbTransactor db => sql_DB_Exec db q
  | nestableTransactor tx => sql_Tx_Exec tx q
  | nestedTransactor tx => sql_Tx_Exec tx q
  end.

(** ** [defer] with [recover]

    [with_deferred zero handler body] is a function whose results are
    unnamed and whose only deferred call evaluates [recover()] first and
    then runs [handler] on what it got.  When [body] returns, [recover()]
    yields nil and the function returns what [body] returned.  When [body]
    panics with [r], [recover()] yields [r] and stops the panic; if
    [handler] then returns, the function returns the zero value of its
    result type.  A panic raised by [handler] leaves the function. *)
Definition with_deferred {A} (zero : A) (handler : any -> M unit)
  (body : M A) : M A :=
  fun s =>
    match body s with
    | (Returned a, s1) =>
        match handler None s1 with
        | (Returned _, s2) => (Returned a, s2)
        | (Panicked r', s2) => (Panicked r', s2)
        end
    | (Panicked r, s1) =>
        match handler r s1 with
        | (Returned _, s2) => (Returned zero, s2)
        | (Panicked r', s2) => (Panicked r', s2)
        end
    end.

(** ** [Transaction] *)

(** Lines 47-61: the deferred rollback-and-repanic, the call of the action
    and the commit or rollback that follows it, on the wrapper [tx]. *)
Definition guarded_action (tx : Transactor) (action : Transactor -> M error)
  : M error :=
  with_deferred None
    (fun r =>
       match r with
       | Some _ => Rollback tx ;;; go_panic env r
       | None => ret tt
       end)
    (err <- action tx ;;
     match err with
     | Some e => Rollback tx ;;; ret (Some e)
     | None => Commit tx
     end).

Definition Transaction (db : Beginner) (action : Transactor -> M error)
  : M error :=
  r <- Begin db ;;
  let impl := fst r in
  match snd r with
  | Some e => ret (Some e)
  | None =>
      let tx :=
        match db with
        | B_Transactor (nestableTransactor _)
        | B_Transactor (nestedTransactor _) => nestedTransactor impl
        | _ => nestableTransactor impl
        end in
      guarded_action tx action
  end.

(** ** [NewTransactor] *)

(** What [%T] prints. *)
Definition type_name (v : Executor) : string :=
  match v with
  | E_sqlDB _ => "*sql.DB"
  | E_sqlTx _ => "*sql.Tx"
  | E_Transactor (dbTransactor _) => "*sx.dbTransactor"
  | E_Transactor (nestableTransactor _) => "*sx.nestableTransactor"
  | E_Transactor (nestedTransactor _) => "*sx.nestedTransactor"
  | E_user u => u
  | E_nil => "<nil>"
  end.

Definition NewTransactor (v : Executor) : M Transactor :=
  match v with
  | E_sqlDB db => ret (dbTransactor db)
  | E_sqlTx tx => ret (nestableTransactor tx)
  | E_Transactor (nestedTransactor tx) => ret (nestedTransactor tx)
  | _ => go_panic env (Some (V_string ("unsupported transactor type: " ++ type_name v)))
  end.

End Sx.

(** ** Actions written against the [Transactor] they are given

    A [Script] is the body of an action that works only through the
    [Transactor] passed to it: it calls the methods of that value, it calls
    [Transaction] on it with an inner action (to any depth), it returns an
    error or it panics.  The [*sql.Tx] that [Begin] hands back reaches the
    continuation, but a script has no operation that calls [Commit] or
    [Rollback] on it directly, past the wrapper. *)
Inductive Script :=
| S_return (e : error)
| S_panic (v : any)
| S_Exec (query : string) (k : error -> Script)
| S_Begin (k : Tx -> error -> Script)
| S_Commit (k : error -> Script)
| S_Rollback (k : error -> Script)
| S_Transaction (inner : Script) (k : error -> Script).

Fixpoint run (env : Env) (s : Script) (tx : Transactor) : M error :=
  match s with
  | S_return e => ret e
  | S_panic v => go_panic env v
  | S_Exec q k => e <- Exec env tx q ;; run env (k e) tx
  | S_Begin k => r <- Begin env tx ;; run env (k (fst r) (snd r)) tx
  | S_Commit k => e <- Commit env tx ;; run env (k e) tx
  | S_Rollback k => e <- Rollback env tx ;; run env (k e) tx
  | S_Transaction inner k =>
      e <- Transaction env tx (run env inner) ;; run env (k e) tx
  end.

(** [nest n leaf] runs [leaf] below [n] further calls of [Transaction]. *)
Fixpoint nest (n : nat) (leaf : Script) : Script :=
  match n with
  | O => leaf
  | S n' => S_Transaction (nest n' leaf) S_return
  end.

(** ** Reading the history *)

Definition is_begin (e : PhysEvent) : bool :=
  match e with DB_Begin _ _ _ => true | _ => false end.

Definition is_commit (e : PhysEvent) : bool :=
  match e with Tx_Commit _ _ => true | _ => false end.

Definition count (f : PhysEvent -> bool) (h : History) : nat :=
  List.length (filter f h).

(** The transaction a wrapper holds. *)
Definition held (t : Transactor) : option Tx :=
  match t with
  | dbTransactor _ => None
  | nestableTransactor tx => Some tx
  | nestedTransactor tx => Some tx
  end.

(** The events a wrapper over [tx] can cause: statements and rollbacks on
    [tx], and commits on [tx] when [may_commit]. *)
Definition event_of (tx : Tx) (may_commit : bool) (e : PhysEvent) : bool :=
  match e with
  | Tx_Exec tx' _ _ => Nat.eqb tx' tx
  | Tx_Rollback tx' _ => Nat.eqb tx' tx
  | Tx_Commit tx' _ => may_commit && Nat.eqb tx' tx
  | _ => false
  end.

Definition owns (t : Transactor) : bool :=
  match t with nestableTransactor _ => true | _ => false end.

(** Modelled from the spec: the lifetime of a [*sql.Tx] belongs to
    [database/sql], which is not part of the package.  Following the
    glossary (commit and rollback are "the two terminal operations on a
    transactional resource"), a transaction is open from the [Begin] that
    returned it without error until the first [Commit] or [Rollback] called
    on it. *)
Definition step_open (tx : Tx) (open : bool) (e : PhysEvent) : bool :=
  match e with
  | DB_Begin _ tx' None => if Nat.eqb tx' tx then true else open
  | Tx_Commit tx' _ => if Nat.eqb tx' tx then false else open
  | Tx_Rollback tx' _ => if Nat.eqb tx' tx then false else open
  | _ => open
  end.

Definition tx_open (tx : Tx) (h : History) : bool :=
  fold_left (step_open tx) h false.

(** Modelled from the spec: step 2 of the orchestrator's algorithm, "if
    handle is itself a Nestable or Nested wrapper, construct a Nested
    wrapper around the begin-returned resource; otherwise construct a
    Nestable wrapper". *)
Definition is_managed (db : Beginner) : bool :=
  match db with
  | B_Transactor (nestableTransactor _) => true
  | B_Transactor (nestedTransactor _) => true
  | _ => false
  end.

Definition wrapper_for (db : Beginner) (impl : Tx) : Transactor :=
  if is_managed db then nestedTransactor impl else nestableTransactor impl.

(** Pool-level handles: a [*sql.DB] and the Root wrapper around one. *)
Definition pool_level (db : Beginner) : bool :=
  match db with
  | B_sqlDB _ => true
  | B_Transactor (dbTransactor _) => true
  | _ => false
  end.

(** The database behind a pool-level handle. *)
Definition pool_of (db : Beginner) : option DB :=
  match db with
  | B_sqlDB d => Some d
  | B_Transactor (dbTransactor d) => Some d
  | _ => None
  end.

(** The factory claim with "any other dynamic kind" read as written: any
    kind that is neither [*sql.DB] nor [*sql.Tx]. *)
Definition factory_claim_as_stated (env : Env) : Prop :=
  (forall db s,
      NewTransactor env (E_sqlDB db) s = (Returned (dbTransactor db), s)) /\
  (forall tx s,
      NewTransactor env (E_sqlTx tx) s = (Returned (nestableTransactor tx), s)) /\
  (forall v s,
      (forall db, v <> E_sqlDB db) -> (forall tx, v <> E_sqlTx tx) ->
      exists r, NewTransactor env v s = (Panicked r, s)).

(** ** Environments to run the definitions in *)

(** A database on which everything succeeds; [Begin] hands out a fresh
    transaction each time. *)
Definition healthy (nilpanic : bool) : Env :=
  {| panicnil := nilpanic;
     sql_DB_Begin_result := fun _ h => (S (List.length h), None);
     sql_DB_Exec_result := fun _ _ _ => None;
     sql_Tx_Exec_result := fun _ _ _ => None;
     sql_Tx_Commit_result := fun _ _ => None;
     sql_Tx_Rollback_result := fun _ _ => None;
     user_Begin := fun _ => ret (7, None) |}.

(** A database on which every call fails. *)
Definition broken : Env :=
  {| panicnil := true;
     sql_DB_Begin_result := fun _ _ => (0, Some "sql: database is closed");
     sql_DB_Exec_result := fun _ _ _ => Some "sql: database is closed";
     sql_Tx_Exec_result := fun _ _ _ => Some "driver: bad connection";
     sql_Tx_Commit_result := fun _ _ => Some "driver: bad connection";
     sql_Tx_Rollback_result := fun _ _ => Some "driver: bad connection";
     user_Begin := fun _ => ret (0, Some "begin refused") |}.

Definition empty : State := mkState [] [].

(** ** What a computation adds to the history *)

(** [emits P m]: whatever the state, [m] only appends to the history, and
    every event it appends satisfies [P]. *)
Definition emits {A} (P : PhysEvent -> bool) (m : M A) : Prop :=
  forall s, exists l, phys (snd (m s)) = phys s ++ l /\ forallb P l = true.

Ltac emits_nothing := intro s; exists []; simpl; rewrite app_nil_r; auto.
Ltac emits_one :=
  intro s; eexists [_]; simpl; split;
  [reflexivity | simpl; rewrite ?Nat.eqb_refl; auto].

(** ** Computations that do not read the log of calls *)

(** [oblivious m]: the result of [m] and what it does to the database
    depend on the history of the database only, not on the log of calls. *)
Definition oblivious {A} (m : M A) : Prop :=
  forall s s', phys s = phys s' ->
    fst (m s) = fst (m s') /\ phys (snd (m s)) = phys (snd (m s')).

(** [returns m]: [m] does not panic. *)
Definition returns {A} (m : M A) : Prop :=
  forall s, exists a s', m s = (Returned a, s').

(** A rollback of [tx]. *)
Definition rollback_of (tx : Tx) (e : PhysEvent) : bool :=
  match e with
  | Tx_Rollback tx' _ => Nat.eqb tx' tx
  | _ => false
  end.

(** The README's usage: wrap the handle with [NewTransactor], then call
    [Transaction] on the wrapper. *)
Definition wrap_then_Transaction (env : Env) (v : Executor)
  (action : Transactor -> M error) : M error :=
  tx <- NewTransactor env v ;; Transaction env tx action.

(** * Properties *)

Lemma emits_ret {A} P (a : A) : emits P (ret a).
Proof. emits_nothing. Qed.

Lemma emits_observe P c : emits P (observe c).
Proof. emits_nothing. Qed.

Lemma emits_go_panic {A} P env v : emits P (@go_panic A env v).
Proof.
  intro s; exists []; unfold go_panic.
  destruct v; [|destruct (panicnil env)]; simpl; rewrite app_nil_r; auto.
Qed.

Lemma emits_bind {A B} P (m : M A) (k : A -> M B) :
  emits P m -> (forall a, emits P (k a)) -> emits P (bind m k).
Proof.
  intros Hm Hk s. unfold bind.
  destruct (Hm s) as [l1 [E1 F1]].
  destruct (m s) as [[a|r] s1]; simpl in *.
  - destruct (Hk a s1) as [l2 [E2 F2]].
    exists (l1 ++ l2). rewrite E2, E1, app_assoc, forallb_app, F1, F2. auto.
  - exists l1. auto.
Qed.

Lemma emits_weaken {A} (P Q : PhysEvent -> bool) (m : M A) :
  (forall e, P e = true -> Q e = true) -> emits P m -> emits Q m.
Proof.
  intros PQ Hm s. destruct (Hm s) as [l [E F]]. exists l; split; auto.
  rewrite forallb_forall in *. auto.
Qed.

Lemma emits_with_deferred {A} P (zero : A) handler body :
  emits P body -> (forall r, emits P (handler r)) ->
  emits P (with_deferred zero handler body).
Proof.
  intros Hb Hh s. unfold with_deferred.
  destruct (Hb s) as [l1 [E1 F1]].
  destruct (body s) as [[a|r] s1]; simpl in *.
  - destruct (Hh None s1) as [l2 [E2 F2]].
    exists (l1 ++ l2).
    destruct (handler None s1) as [[u|r'] s2]; simpl in *;
      rewrite E2, E1, app_assoc, forallb_app, F1, F2; auto.
  - destruct (Hh r s1) as [l2 [E2 F2]].
    exists (l1 ++ l2).
    destruct (handler r s1) as [[u|r'] s2]; simpl in *;
      rewrite E2, E1, app_assoc, forallb_app, F1, F2; auto.
Qed.

Lemma event_of_weaken tx b e :
  event_of tx false e = true -> event_of tx b e = true.
Proof. destruct e; simpl; try discriminate; auto. Qed.

Section Emission.

Variable env : Env.

Lemma emits_Begin_held t tx b :
  held t = Some tx -> emits (event_of tx b) (Begin env t).
Proof.
  intros H. unfold Begin. apply emits_bind; [apply emits_observe|intros _].
  destruct t; try discriminate; simpl; apply emits_ret.
Qed.

Lemma emits_Exec_held t tx b q :
  held t = Some tx -> emits (event_of tx b) (Exec env t q).
Proof.
  intros H. unfold Exec. apply emits_bind; [apply emits_observe|intros _].
  destruct t; try discriminate; injection H as ->;
    emits_one.
Qed.

Lemma emits_Rollback_held t tx b :
  held t = Some tx -> emits (event_of tx b) (Rollback env t).
Proof.
  intros H. unfold Rollback. apply emits_bind; [apply emits_observe|intros _].
  destruct t; try discriminate; injection H as ->;
    emits_one.
Qed.

Lemma emits_Commit_held t tx :
  held t = Some tx -> emits (event_of tx (owns t)) (Commit env t).
Proof.
  intros H. unfold Commit. apply emits_bind; [apply emits_observe|intros _].
  destruct t; try discriminate; injection H as ->; simpl.
  - emits_one.
  - apply emits_ret.
Qed.

(** The finalisation [Transaction] performs on the wrapper [t] adds only
    what the action and the wrapper's own methods add. *)
Lemma emits_guarded_action t tx action :
  held t = Some tx ->
  emits (event_of tx (owns t)) (action t) ->
  emits (event_of tx (owns t)) (guarded_action env t action).
Proof.
  intros H Ha. unfold guarded_action. apply emits_with_deferred.
  - apply emits_bind; [exact Ha|]. intros [e|].
    + apply emits_bind; [now apply emits_Rollback_held | intros _; apply emits_ret].
    + now apply emits_Commit_held.
  - intros [v|]; [|apply emits_ret].
    apply emits_bind; [now apply emits_Rollback_held | intros _; apply emits_go_panic].
Qed.

(** [Transaction] on a wrapper that holds [tx]: [Begin] hands [tx] back
    and the action runs on a Nested wrapper over it. *)
Lemma Transaction_on_wrapper t tx action s :
  held t = Some tx ->
  Transaction env t action s =
  guarded_action env (nestedTransactor tx) action
    (mkState (phys s) (calls s ++ [Call_Begin t])).
Proof. destruct t; try discriminate; intros [= ->]; reflexivity. Qed.

(** An inner scope adds statements and rollbacks on [tx] and nothing else,
    provided its action does so on the Nested wrapper it is given. *)
Lemma emits_Transaction_inner t tx action :
  held t = Some tx ->
  emits (event_of tx false) (action (nestedTransactor tx)) ->
  emits (event_of tx false) (Transaction env t action).
Proof.
  intros H Ha s. rewrite (Transaction_on_wrapper t tx action s H).
  exact (emits_guarded_action (nestedTransactor tx) tx action eq_refl Ha
           (mkState (phys s) (calls s ++ [Call_Begin t]))).
Qed.

(** A script run on a wrapper over [tx] adds statements and rollbacks on
    [tx], commits on [tx] when the wrapper is the Nestable one, and nothing
    else. *)
Lemma emits_run script : forall t tx,
  held t = Some tx -> emits (event_of tx (owns t)) (run env script t).
Proof.
  induction script as [e|v|q k IH|k IH|k IH|k IH|inner IHi k IH];
    intros t tx H; simpl.
  - apply emits_ret.
  - apply emits_go_panic.
  - apply emits_bind; [now apply emits_Exec_held | intros e; now apply IH].
  - apply emits_bind; [now apply emits_Begin_held | intros r; now apply IH].
  - apply emits_bind; [now apply emits_Commit_held | intros e; now apply IH].
  - apply emits_bind; [now apply emits_Rollback_held | intros e; now apply IH].
  - apply emits_bind; [| intros e; now apply IH].
    apply emits_weaken with (P := event_of tx false);
      [intros e; apply event_of_weaken|].
    apply emits_Transaction_inner; [exact H|].
    apply (IHi (nestedTransactor tx) tx eq_refl).
Qed.

End Emission.

(** ** Counting *)

Lemma count_app f h l : count f (h ++ l) = count f h + count f l.
Proof. unfold count. now rewrite filter_app, length_app. Qed.

Lemma count_none f P l :
  (forall e, P e = true -> f e = false) -> forallb P l = true -> count f l = 0.
Proof.
  intros PF. unfold count. induction l as [|e l IH]; simpl; [reflexivity|].
  intros H. apply andb_true_iff in H as [He Hl].
  rewrite (PF e He). auto.
Qed.

Lemma event_of_not_begin tx b e : event_of tx b e = true -> is_begin e = false.
Proof. destruct e; simpl; auto; discriminate. Qed.

Lemma event_of_not_commit tx e : event_of tx false e = true -> is_commit e = false.
Proof. destruct e; simpl; auto; discriminate. Qed.

Lemma emits_count {A} f P (m : M A) s :
  (forall e, P e = true -> f e = false) -> emits P m ->
  count f (phys (snd (m s))) = count f (phys s).
Proof.
  intros PF Hm. destruct (Hm s) as [l [E F]].
  rewrite E, count_app, (count_none f P l PF F). lia.
Qed.

(** ** Pool-level handles *)

(** [Transaction] on a pool-level handle: one [Begin] reaches the database;
    if it succeeds the action runs on a Nestable wrapper over the new
    transaction. *)
Lemma Transaction_on_pool env db d action s :
  pool_of db = Some d ->
  let r := sql_DB_Begin_result env d (phys s) in
  let s1 := mkState (phys s ++ [DB_Begin d (fst r) (snd r)])
                    (calls s ++ [Call_Begin db]) in
  Transaction env db action s =
  match snd r with
  | Some e => (Returned (Some e), s1)
  | None => guarded_action env (nestableTransactor (fst r)) action s1
  end.
Proof.
  intros H. destruct db as [d'| [d'|tx|tx] | u |]; try discriminate;
    injection H as ->; unfold Transaction, bind; simpl;
    destruct (snd (sql_DB_Begin_result env d (phys s))); reflexivity.
Qed.

Lemma pool_scope_events env db d script s :
  pool_of db = Some d ->
  let r := sql_DB_Begin_result env d (phys s) in
  exists l,
    phys (snd (Transaction env db (run env script) s)) =
      phys s ++ DB_Begin d (fst r) (snd r) :: l /\
    forallb (event_of (fst r) true) l = true.
Proof.
  intros H r. rewrite (Transaction_on_pool env db d _ s H). fold r.
  destruct (snd r) as [e|].
  - exists []. simpl. auto.
  - destruct (emits_guarded_action env (nestableTransactor (fst r)) (fst r)
                (run env script) eq_refl
                (emits_run env script (nestableTransactor (fst r)) (fst r) eq_refl)
                (mkState (phys s ++ [DB_Begin d (fst r) None])
                         (calls s ++ [Call_Begin db]))) as [l [E F]].
    exists l. split; [|exact F].
    rewrite E. simpl. rewrite <- app_assoc. reflexivity.
Qed.

Lemma pool_scope_begins env db d script s :
  pool_of db = Some d ->
  count is_begin (phys (snd (Transaction env db (run env script) s))) =
  count is_begin (phys s) + 1.
Proof.
  intros H. destruct (pool_scope_events env db d script s H) as [l [E F]].
  rewrite E.
  change (DB_Begin d (fst (sql_DB_Begin_result env d (phys s)))
            (snd (sql_DB_Begin_result env d (phys s))) :: l)
    with ([DB_Begin d (fst (sql_DB_Begin_result env d (phys s)))
            (snd (sql_DB_Begin_result env d (phys s)))] ++ l).
  rewrite !count_app.
  rewrite (count_none is_begin _ l (event_of_not_begin _ true) F).
  reflexivity.
Qed.

(** ** C1 *)

(** C1. Commit ownership.  [Commit] on a Root wrapper and on a Nested
    wrapper returns nil and leaves the history of the database as it was;
    [Rollback] on a Nested wrapper is the rollback of the transaction it
    holds; [Commit] on a Nestable wrapper is the commit of the transaction
    it holds.  Hence an inner scope ([Transaction] called on a Nestable or
    a Nested wrapper), whatever its action does through the wrapper it is
    given and however deep that action nests further scopes, adds no commit
    to the history, while an inner scope whose action fails rolls the shared
    transaction back. *)
Theorem commit_ownership (env : Env) :
  (forall db s,
      Commit env (dbTransactor db) s =
      (Returned None,
       mkState (phys s) (calls s ++ [Call_Commit (dbTransactor db)]))) /\
  (forall tx s,
      Commit env (nestedTransactor tx) s =
      (Returned None,
       mkState (phys s) (calls s ++ [Call_Commit (nestedTransactor tx)]))) /\
  (forall tx s,
      let r := sql_Tx_Rollback_result env tx (phys s) in
      Rollback env (nestedTransactor tx) s =
      (Returned r,
       mkState (phys s ++ [Tx_Rollback tx r])
               (calls s ++ [Call_Rollback (nestedTransactor tx)]))) /\
  (forall tx s,
      let r := sql_Tx_Commit_result env tx (phys s) in
      Commit env (nestableTransactor tx) s =
      (Returned r,
       mkState (phys s ++ [Tx_Commit tx r])
               (calls s ++ [Call_Commit (nestableTransactor tx)]))) /\
  (forall tx script s,
      count is_commit
        (phys (snd (Transaction env (nestableTransactor tx) (run env script) s))) =
      count is_commit (phys s) /\
      count is_commit
        (phys (snd (Transaction env (nestedTransactor tx) (run env script) s))) =
      count is_commit (phys s)) /\
  (forall tx e s,
      let r := sql_Tx_Rollback_result env tx (phys s) in
      phys (snd (Transaction env (nestableTransactor tx)
                   (fun _ => ret (Some e)) s)) =
        phys s ++ [Tx_Rollback tx r] /\
      phys (snd (Transaction env (nestedTransactor tx)
                   (fun _ => ret (Some e)) s)) =
        phys s ++ [Tx_Rollback tx r]).
Proof.
  split; [reflexivity|]. split; [reflexivity|]. split; [reflexivity|].
  split; [reflexivity|]. split.
  - intros tx script s.
    split; apply (emits_count is_commit (event_of tx false));
      try apply event_of_not_commit;
      apply emits_Transaction_inner with (tx := tx); try reflexivity;
      apply (emits_run env script (nestedTransactor tx) tx eq_refl).
  - intros tx e s r. split; reflexivity.
Qed.

(** ** C2 *)

(** C2. Transaction reuse.  [Begin] on a Nestable and on a Nested wrapper
    returns the transaction the wrapper holds and a nil error, and nothing
    reaches the database.  An outermost scope ([Transaction] on a pool-level
    handle: a [*sql.DB] or a Root wrapper) whose action works through the
    Transactor it is given, nesting further scopes to any depth, calls
    [Begin] on the database exactly once, and everything else that reaches
    the database during the scope is a call on the one transaction that
    [Begin] returned. *)
Theorem transaction_reuse (env : Env) :
  (forall tx s,
      Begin env (nestableTransactor tx) s =
      (Returned (tx, None),
       mkState (phys s) (calls s ++ [Call_Begin (nestableTransactor tx)]))) /\
  (forall tx s,
      Begin env (nestedTransactor tx) s =
      (Returned (tx, None),
       mkState (phys s) (calls s ++ [Call_Begin (nestedTransactor tx)]))) /\
  (forall db script s,
      let r := sql_DB_Begin_result env db (phys s) in
      let after_sqlDB :=
        phys (snd (Transaction env (B_sqlDB db) (run env script) s)) in
      let after_root :=
        phys (snd (Transaction env (dbTransactor db) (run env script) s)) in
      count is_begin after_sqlDB = count is_begin (phys s) + 1 /\
      count is_begin after_root = count is_begin (phys s) + 1 /\
      (exists l, after_sqlDB = phys s ++ DB_Begin db (fst r) (snd r) :: l /\
                 forallb (event_of (fst r) true) l = true) /\
      (exists l, after_root = phys s ++ DB_Begin db (fst r) (snd r) :: l /\
                 forallb (event_of (fst r) true) l = true)) /\
  (forall db n leaf s,
      count is_begin
        (phys (snd (Transaction env (B_sqlDB db) (run env (nest n leaf)) s))) =
      count is_begin (phys s) + 1).
Proof.
  split; [reflexivity|]. split; [reflexivity|]. split.
  - intros db script s r after_sqlDB after_root.
    split; [apply pool_scope_begins with (d := db); reflexivity|].
    split; [apply pool_scope_begins with (d := db); reflexivity|].
    split.
    + apply (pool_scope_events env (B_sqlDB db) db script s eq_refl).
    + apply (pool_scope_events env (dbTransactor db) db script s eq_refl).
  - intros db n leaf s.
    apply pool_scope_begins with (d := db); reflexivity.
Qed.

(** ** The orchestrator after [Begin] *)

Lemma held_wrapper_for db impl : held (wrapper_for db impl) = Some impl.
Proof. unfold wrapper_for. destruct (is_managed db); reflexivity. Qed.

(** The switch of lines 40-45 against step 2 of the algorithm. *)
Lemma Transaction_after_Begin env db action s impl err s1 :
  Begin env db s = (Returned (impl, err), s1) ->
  Transaction env db action s =
  match err with
  | Some e => (Returned (Some e), s1)
  | None => guarded_action env (wrapper_for db impl) action s1
  end.
Proof.
  intros H. unfold Transaction, bind at 1. rewrite H. simpl.
  destruct err as [e|]; [reflexivity|].
  destruct db as [d| [d|tx|tx] | u |]; reflexivity.
Qed.

(** What [Rollback] does on a wrapper that holds a transaction. *)
Lemma Rollback_held env w tx s :
  held w = Some tx ->
  let r := sql_Tx_Rollback_result env tx (phys s) in
  Rollback env w s =
  (Returned r,
   mkState (phys s ++ [Tx_Rollback tx r]) (calls s ++ [Call_Rollback w])).
Proof. destruct w; try discriminate; intros [= ->]; reflexivity. Qed.

Lemma guarded_action_error env w tx action s1 e s2 :
  held w = Some tx ->
  action w s1 = (Returned (Some e), s2) ->
  let r := sql_Tx_Rollback_result env tx (phys s2) in
  guarded_action env w action s1 =
  (Returned (Some e),
   mkState (phys s2 ++ [Tx_Rollback tx r]) (calls s2 ++ [Call_Rollback w])).
Proof.
  intros H Ha. unfold guarded_action, with_deferred, bind at 1. rewrite Ha.
  unfold bind. rewrite (Rollback_held env w tx s2 H). reflexivity.
Qed.

Lemma guarded_action_panic env w tx action s1 v s2 :
  held w = Some tx ->
  action w s1 = (Panicked (Some v), s2) ->
  let r := sql_Tx_Rollback_result env tx (phys s2) in
  guarded_action env w action s1 =
  (Panicked (Some v),
   mkState (phys s2 ++ [Tx_Rollback tx r]) (calls s2 ++ [Call_Rollback w])).
Proof.
  intros H Ha. unfold guarded_action, with_deferred, bind at 1. rewrite Ha.
  unfold bind. rewrite (Rollback_held env w tx s2 H). reflexivity.
Qed.

Lemma guarded_action_nil_panic env w action s1 s2 :
  action w s1 = (Panicked None, s2) ->
  guarded_action env w action s1 = (Returned None, s2).
Proof.
  intros Ha. unfold guarded_action, with_deferred, bind at 1. rewrite Ha.
  reflexivity.
Qed.

Lemma guarded_action_success env w action s1 s2 :
  action w s1 = (Returned None, s2) ->
  guarded_action env w action s1 = Commit env w s2.
Proof.
  intros Ha. unfold guarded_action, with_deferred, bind at 1. rewrite Ha.
  destruct w; reflexivity.
Qed.

Lemma tx_open_snoc tx h e : tx_open tx (h ++ [e]) = step_open tx (tx_open tx h) e.
Proof. unfold tx_open. rewrite fold_left_app. reflexivity. Qed.

Lemma pool_level_pool_of db : pool_level db = true -> exists d, pool_of db = Some d.
Proof.
  destruct db as [d| [d|tx|tx] | u |]; try discriminate; intros _; now exists d.
Qed.

Lemma Begin_on_pool env db d s :
  pool_of db = Some d ->
  let r := sql_DB_Begin_result env d (phys s) in
  Begin env db s =
  (Returned r,
   mkState (phys s ++ [DB_Begin d (fst r) (snd r)]) (calls s ++ [Call_Begin db])).
Proof.
  destruct db as [d'| [d'|tx|tx] | u |]; try discriminate; intros [= ->];
    reflexivity.
Qed.

(** ** C3 *)

(** C3. Classification in the orchestrator.  When [Begin] on the handle
    succeeds and returns [impl], [Transaction] runs the action, and the
    commit or rollback that follows it, on the wrapper that step 2 of the
    algorithm names: the Nested wrapper over [impl] when the handle is a
    Nestable or a Nested wrapper, the Nestable wrapper over [impl] for a
    [*sql.DB], a Root wrapper and a handle of any foreign type. *)
Theorem orchestrator_classification env db action s impl s1 :
  Begin env db s = (Returned (impl, None), s1) ->
  Transaction env db action s =
    guarded_action env (wrapper_for db impl) action s1 /\
  Transaction env db action s =
    Transaction env db (fun _ => action (wrapper_for db impl)) s /\
  (forall tx, wrapper_for (nestableTransactor tx) impl = nestedTransactor impl) /\
  (forall tx, wrapper_for (nestedTransactor tx) impl = nestedTransactor impl) /\
  (forall d, wrapper_for (B_sqlDB d) impl = nestableTransactor impl) /\
  (forall d, wrapper_for (dbTransactor d) impl = nestableTransactor impl) /\
  (forall u, wrapper_for (B_user u) impl = nestableTransactor impl) /\
  (wrapper_for db impl = nestedTransactor impl <->
   exists tx, db = B_Transactor (nestableTransactor tx) \/
              db = B_Transactor (nestedTransactor tx)) /\
  (wrapper_for db impl = nestableTransactor impl <->
   forall tx, db <> B_Transactor (nestableTransactor tx) /\
              db <> B_Transactor (nestedTransactor tx)).
Proof.
  intros H.
  split; [apply (Transaction_after_Begin env db action s impl None s1 H)|].
  split.
  { rewrite (Transaction_after_Begin env db action s impl None s1 H).
    rewrite (Transaction_after_Begin env db _ s impl None s1 H).
    reflexivity. }
  repeat (split; [reflexivity|]).
  split; split.
  - destruct db as [d| [d|tx|tx] | u |]; try discriminate; intros _;
      exists tx; auto.
  - intros [tx [-> | ->]]; reflexivity.
  - destruct db as [d| [d|tx|tx] | u |]; try discriminate; intros _ tx';
      split; discriminate.
  - intros N. destruct db as [d| [d|tx|tx] | u |]; try reflexivity.
    + destruct (proj1 (N tx) eq_refl).
    + destruct (proj2 (N tx) eq_refl).
Qed.

Lemma orchestrator_classification_witness :
  Transaction (healthy true) (nestedTransactor 5) (fun _ => ret None) empty =
    guarded_action (healthy true) (wrapper_for (nestedTransactor 5) 5)
      (fun _ => ret None) (mkState [] [Call_Begin (nestedTransactor 5)]) /\
  Transaction (healthy true) (nestedTransactor 5) (fun _ => ret None) empty =
    Transaction (healthy true) (nestedTransactor 5)
      (fun _ => ret None) empty /\
  (forall tx, wrapper_for (nestableTransactor tx) 5 = nestedTransactor 5) /\
  (forall tx, wrapper_for (nestedTransactor tx) 5 = nestedTransactor 5) /\
  (forall d, wrapper_for (B_sqlDB d) 5 = nestableTransactor 5) /\
  (forall d, wrapper_for (dbTransactor d) 5 = nestableTransactor 5) /\
  (forall u, wrapper_for (B_user u) 5 = nestableTransactor 5) /\
  (wrapper_for (nestedTransactor 5) 5 = nestedTransactor 5 <->
   exists tx, B_Transactor (nestedTransactor 5) = B_Transactor (nestableTransactor tx) \/
              B_Transactor (nestedTransactor 5) = B_Transactor (nestedTransactor tx)) /\
  (wrapper_for (nestedTransactor 5) 5 = nestableTransactor 5 <->
   forall tx, B_Transactor (nestedTransactor 5) <> B_Transactor (nestableTransactor tx) /\
              B_Transactor (nestedTransactor 5) <> B_Transactor (nestedTransactor tx)).
Proof.
  apply (orchestrator_classification (healthy true) (nestedTransactor 5)
           (fun _ => ret None) empty 5
           (mkState [] [Call_Begin (nestedTransactor 5)])).
  reflexivity.
Defined.

(** ** C4 *)

(** Panic safety for a panic value that is not nil: [Rollback] is called
    once on the wrapper, [Commit] is not called, the panic leaves
    [Transaction] with the value the action raised, and what [Rollback]
    returned is dropped. *)
Lemma panic_safety_non_nil env db action s impl s1 v s2 :
  Begin env db s = (Returned (impl, None), s1) ->
  action (wrapper_for db impl) s1 = (Panicked (Some v), s2) ->
  let r := sql_Tx_Rollback_result env impl (phys s2) in
  Transaction env db action s =
  (Panicked (Some v),
   mkState (phys s2 ++ [Tx_Rollback impl r])
           (calls s2 ++ [Call_Rollback (wrapper_for db impl)])).
Proof.
  intros H Ha.
  rewrite (Transaction_after_Begin env db action s impl None s1 H).
  apply guarded_action_panic; [apply held_wrapper_for | exact Ha].
Qed.

(** C4. Panic safety, at an action that panics with nil on a Go that keeps
    nil as the panic value: [Begin] succeeds, the action panics, and
    [Transaction] returns a nil error to its caller; neither [Rollback] nor
    [Commit] is called and the transaction that was begun stays open. *)
Theorem panic_safety_nil_panic :
  let env := healthy true in
  let action := fun _ : Transactor => @go_panic error env None in
  Begin env (B_sqlDB 0) empty =
    (Returned (1, None),
     mkState [DB_Begin 0 1 None] [Call_Begin (B_sqlDB 0)]) /\
  action (nestableTransactor 1)
    (mkState [DB_Begin 0 1 None] [Call_Begin (B_sqlDB 0)]) =
    (Panicked None, mkState [DB_Begin 0 1 None] [Call_Begin (B_sqlDB 0)]) /\
  Transaction env (B_sqlDB 0) action empty =
    (Returned None, mkState [DB_Begin 0 1 None] [Call_Begin (B_sqlDB 0)]) /\
  tx_open 1 (phys (snd (Transaction env (B_sqlDB 0) action empty))) = true.
Proof. repeat split. Qed.

(** ** C5 *)

(** C5. Action-error path.  When [Begin] on the handle succeeds and the
    action returns a non-nil error [e], [Transaction] returns [e]; after the
    action it makes one call, [Rollback] on the wrapper it constructed, and
    no call of [Commit]; the error [Rollback] returns does not reach the
    caller. *)
Theorem action_error_path env db action s impl s1 e s2 :
  Begin env db s = (Returned (impl, None), s1) ->
  action (wrapper_for db impl) s1 = (Returned (Some e), s2) ->
  let r := sql_Tx_Rollback_result env impl (phys s2) in
  Transaction env db action s =
  (Returned (Some e),
   mkState (phys s2 ++ [Tx_Rollback impl r])
           (calls s2 ++ [Call_Rollback (wrapper_for db impl)])).
Proof.
  intros H Ha.
  rewrite (Transaction_after_Begin env db action s impl None s1 H).
  apply guarded_action_error; [apply held_wrapper_for | exact Ha].
Qed.

(** On a database whose rollback fails, the caller still gets the action's
    error. *)
Lemma action_error_path_witness :
  Transaction broken (nestableTransactor 4) (fun _ => ret (Some "boom")) empty =
  (Returned (Some "boom"),
   mkState [Tx_Rollback 4 (Some "driver: bad connection")]
           [Call_Begin (nestableTransactor 4);
            Call_Rollback (nestedTransactor 4)]).
Proof.
  apply (action_error_path broken (nestableTransactor 4)
           (fun _ => ret (Some "boom")) empty 4
           (mkState [] [Call_Begin (nestableTransactor 4)]) "boom"
           (mkState [] [Call_Begin (nestableTransactor 4)]));
    reflexivity.
Defined.

(** ** C6 *)

(** C6. Success path.  On a pool-level handle on which [Begin] succeeds,
    the transaction [Begin] returned is open when the action starts.  If
    the action returns nil, [Transaction] makes one further call, [Commit]
    on the Nestable wrapper, which commits the transaction, and returns
    what that commit returned; no [Rollback] is called.  If the action
    returns an error, the one further call is [Rollback], which rolls the
    transaction back, and the action's error is returned.  Either way the
    transaction is not open when [Transaction] returns. *)
Theorem success_path env db action s impl s1 err s2 :
  pool_level db = true ->
  Begin env db s = (Returned (impl, None), s1) ->
  action (nestableTransactor impl) s1 = (Returned err, s2) ->
  tx_open impl (phys s1) = true /\
  match err with
  | None =>
      let r := sql_Tx_Commit_result env impl (phys s2) in
      Transaction env db action s =
      (Returned r,
       mkState (phys s2 ++ [Tx_Commit impl r])
               (calls s2 ++ [Call_Commit (nestableTransactor impl)]))
  | Some e =>
      let r := sql_Tx_Rollback_result env impl (phys s2) in
      Transaction env db action s =
      (Returned (Some e),
       mkState (phys s2 ++ [Tx_Rollback impl r])
               (calls s2 ++ [Call_Rollback (nestableTransactor impl)]))
  end /\
  tx_open impl (phys (snd (Transaction env db action s))) = false.
Proof.
  intros Hp H Ha.
  destruct (pool_level_pool_of db Hp) as [d Hd].
  assert (W : wrapper_for db impl = nestableTransactor impl).
  { destruct db as [d'| [d'|tx|tx] | u |]; try discriminate; reflexivity. }
  split.
  { pose proof (Begin_on_pool env db d s Hd) as B. simpl in B.
    rewrite H in B. injection B as B1 B2. subst s1. simpl.
    rewrite tx_open_snoc. rewrite <- B1. simpl. now rewrite Nat.eqb_refl. }
  rewrite (Transaction_after_Begin env db action s impl None s1 H), W.
  destruct err as [e|].
  - rewrite (guarded_action_error env (nestableTransactor impl) impl action
               s1 e s2 eq_refl Ha).
    split; [reflexivity|]. simpl.
    rewrite tx_open_snoc. simpl. now rewrite Nat.eqb_refl.
  - rewrite (guarded_action_success env (nestableTransactor impl) action
               s1 s2 Ha).
    split; [reflexivity|]. simpl.
    rewrite tx_open_snoc. simpl. now rewrite Nat.eqb_refl.
Qed.

Lemma success_path_witness :
  tx_open 1 [DB_Begin 0 1 None] = true /\
  Transaction (healthy true) (dbTransactor 0) (fun _ => ret None) empty =
    (Returned None,
     mkState [DB_Begin 0 1 None; Tx_Commit 1 None]
             [Call_Begin (dbTransactor 0); Call_Commit (nestableTransactor 1)]) /\
  tx_open 1
    (phys (snd (Transaction (healthy true) (dbTransactor 0)
                  (fun _ => ret None) empty))) = false.
Proof.
  apply (success_path (healthy true) (dbTransactor 0) (fun _ => ret None)
           empty 1
           (mkState [DB_Begin 0 1 None] [Call_Begin (dbTransactor 0)]) None
           (mkState [DB_Begin 0 1 None] [Call_Begin (dbTransactor 0)]));
    reflexivity.
Defined.

(** The error case of C6 on a [*sql.DB]. *)
Example success_path_error_case :
  Transaction (healthy true) (B_sqlDB 0) (fun _ => ret (Some "boom")) empty =
    (Returned (Some "boom"),
     mkState [DB_Begin 0 1 None; Tx_Rollback 1 None]
             [Call_Begin (B_sqlDB 0); Call_Rollback (nestableTransactor 1)]) /\
  tx_open 1 [DB_Begin 0 1 None; Tx_Rollback 1 None] = false.
Proof. split; reflexivity. Qed.

(** ** C7 *)

(** C7. Begin-failure atomicity.  When [Begin] on the handle returns a
    non-nil error, [Transaction] returns that error and leaves the state as
    [Begin] left it: no call is added to the log and nothing more reaches
    the database.  This is so for every action, so the action is not run. *)
Theorem begin_failure env db action s impl e s1 :
  Begin env db s = (Returned (impl, Some e), s1) ->
  Transaction env db action s = (Returned (Some e), s1) /\
  (forall action', Transaction env db action' s = Transaction env db action s).
Proof.
  intros H. split.
  - apply (Transaction_after_Begin env db action s impl (Some e) s1 H).
  - intros action'.
    rewrite (Transaction_after_Begin env db action s impl (Some e) s1 H).
    apply (Transaction_after_Begin env db action' s impl (Some e) s1 H).
Qed.

Lemma begin_failure_witness :
  Transaction broken (B_sqlDB 0) (fun _ => go_panic broken None) empty =
    (Returned (Some "sql: database is closed"),
     mkState [DB_Begin 0 0 (Some "sql: database is closed")]
             [Call_Begin (B_sqlDB 0)]) /\
  (forall action',
      Transaction broken (B_sqlDB 0) action' empty =
      Transaction broken (B_sqlDB 0) (fun _ => go_panic broken None) empty).
Proof.
  apply (begin_failure broken (B_sqlDB 0) (fun _ => go_panic broken None)
           empty 0 "sql: database is closed"
           (mkState [DB_Begin 0 0 (Some "sql: database is closed")]
                    [Call_Begin (B_sqlDB 0)])).
  reflexivity.
Defined.

(** ** C8 *)

(** A Nested wrapper is neither a [*sql.DB] nor a [*sql.Tx], and the factory
    returns on it. *)
Lemma factory_returns_on_nested :
  NewTransactor (healthy true) (nestedTransactor 3) empty =
    (Returned (nestedTransactor 3), empty) /\
  ~ factory_claim_as_stated (healthy true).
Proof.
  split; [reflexivity|].
  intros [_ [_ H]].
  destruct (H (E_Transactor (nestedTransactor 3)) empty) as [r Hr];
    try (intros x; discriminate).
  discriminate Hr.
Qed.

(** C8 (amended). Factory classification.  [NewTransactor] returns a Root
    wrapper for a [*sql.DB] and a Nestable wrapper for a [*sql.Tx]; for a
    handle of any other dynamic kind except a Nested wrapper it panics with
    the message "unsupported transactor type: " followed by the name of the
    type, and returns nothing; a Nestable wrapper and a Root wrapper are
    among the kinds it panics on. *)
Theorem factory_classification (env : Env) :
  (forall db s,
      NewTransactor env (E_sqlDB db) s = (Returned (dbTransactor db), s)) /\
  (forall tx s,
      NewTransactor env (E_sqlTx tx) s = (Returned (nestableTransactor tx), s)) /\
  (forall v s,
      (forall db, v <> E_sqlDB db) -> (forall tx, v <> E_sqlTx tx) ->
      (forall tx, v <> E_Transactor (nestedTransactor tx)) ->
      NewTransactor env v s =
      (Panicked (Some (V_string ("unsupported transactor type: " ++ type_name v))),
       s)) /\
  (forall tx s,
      NewTransactor env (nestableTransactor tx) s =
      (Panicked (Some (V_string "unsupported transactor type: *sx.nestableTransactor")),
       s)) /\
  (forall db s,
      NewTransactor env (dbTransactor db) s =
      (Panicked (Some (V_string "unsupported transactor type: *sx.dbTransactor")),
       s)).
Proof.
  split; [reflexivity|]. split; [reflexivity|]. split.
  - intros v s Hdb Htx Hn.
    destruct v as [db|tx| [db|tx|tx] |u|]; try reflexivity.
    + destruct (Hdb db eq_refl).
    + destruct (Htx tx eq_refl).
    + destruct (Hn tx eq_refl).
  - split; reflexivity.
Qed.

(** ** C9 *)

(** C9. Idempotence of the factory on Nested wrappers.  [NewTransactor]
    applied to a Nested wrapper returns a Nested wrapper over the same
    transaction, and leaves the state alone. *)
Theorem factory_idempotent_on_nested (env : Env) (tx : Tx) (s : State) :
  NewTransactor env (nestedTransactor tx) s =
    (Returned (nestedTransactor tx), s) /\
  held (nestedTransactor tx) = Some tx /\
  owns (nestedTransactor tx) = false.
Proof. repeat split. Qed.

(** ** C10 *)

(** C10. Nil-panic edge case.  When [Begin] on the handle succeeds and the
    action panics with a value for which [recover()] yields nil, the
    deferred function does nothing: [Transaction] returns a nil error and
    leaves the state as the action left it, so that no [Rollback] and no
    [Commit] is called, no panic reaches the caller, and the transaction is
    open afterwards if it was open when the action panicked. *)
Theorem nil_panic_edge_case env db action s impl s1 s2 :
  Begin env db s = (Returned (impl, None), s1) ->
  action (wrapper_for db impl) s1 = (Panicked None, s2) ->
  Transaction env db action s = (Returned None, s2) /\
  tx_open impl (phys (snd (Transaction env db action s))) =
    tx_open impl (phys s2).
Proof.
  intros H Ha.
  rewrite (Transaction_after_Begin env db action s impl None s1 H).
  rewrite (guarded_action_nil_panic env _ action s1 s2 Ha).
  split; reflexivity.
Qed.

Lemma nil_panic_edge_case_witness :
  Transaction (healthy true) (dbTransactor 0)
    (run (healthy true) (S_Exec "INSERT" (fun _ => S_panic None))) empty =
    (Returned None,
     mkState [DB_Begin 0 1 None; Tx_Exec 1 "INSERT" None]
             [Call_Begin (dbTransactor 0);
              Call_Exec (nestableTransactor 1) "INSERT"]) /\
  tx_open 1
    (phys (snd (Transaction (healthy true) (dbTransactor 0)
             (run (healthy true) (S_Exec "INSERT" (fun _ => S_panic None)))
             empty))) =
    tx_open 1 [DB_Begin 0 1 None; Tx_Exec 1 "INSERT" None].
Proof.
  apply (nil_panic_edge_case (healthy true) (dbTransactor 0)
           (run (healthy true) (S_Exec "INSERT" (fun _ => S_panic None)))
           empty 1
           (mkState [DB_Begin 0 1 None] [Call_Begin (dbTransactor 0)])
           (mkState [DB_Begin 0 1 None; Tx_Exec 1 "INSERT" None]
                    [Call_Begin (dbTransactor 0);
                     Call_Exec (nestableTransactor 1) "INSERT"]));
    reflexivity.
Defined.

(** The transaction of that run is left open. *)
Example nil_panic_leaves_transaction_open :
  tx_open 1 [DB_Begin 0 1 None; Tx_Exec 1 "INSERT" None] = true.
Proof. reflexivity. Qed.

(** * Further properties of the package *)

(** ** The log of calls is not read *)

Lemma oblivious_ret {A} (a : A) : oblivious (ret a).
Proof. intros s s' E. simpl. auto. Qed.

Lemma oblivious_observe c : oblivious (observe c).
Proof. intros s s' E. simpl. auto. Qed.

Lemma oblivious_go_panic {A} env v : oblivious (@go_panic A env v).
Proof.
  intros s s' E. unfold go_panic.
  destruct v; [|destruct (panicnil env)]; simpl; auto.
Qed.

Lemma oblivious_bind {A B} (m : M A) (k : A -> M B) :
  oblivious m -> (forall a, oblivious (k a)) -> oblivious (bind m k).
Proof.
  intros Hm Hk s s' E. destruct (Hm s s' E) as [F P]. unfold bind.
  destruct (m s) as [[a|r] s1], (m s') as [[a'|r'] s1']; simpl in *;
    try discriminate.
  - injection F as ->. apply Hk. exact P.
  - injection F as ->. auto.
Qed.

Lemma oblivious_with_deferred {A} (zero : A) handler body :
  oblivious body -> (forall r, oblivious (handler r)) ->
  oblivious (with_deferred zero handler body).
Proof.
  intros Hb Hh s s' E. destruct (Hb s s' E) as [F P]. unfold with_deferred.
  destruct (body s) as [[a|r] s1], (body s') as [[a'|r'] s1']; simpl in *;
    try discriminate; injection F as ->.
  - destruct (Hh None s1 s1' P) as [F' P'].
    destruct (handler None s1) as [[u|x] s2],
             (handler None s1') as [[u'|x'] s2']; simpl in *;
      try discriminate; injection F' as F'; subst; auto.
  - destruct (Hh r' s1 s1' P) as [F' P'].
    destruct (handler r' s1) as [[u|x] s2],
             (handler r' s1') as [[u'|x'] s2']; simpl in *;
      try discriminate; injection F' as F'; subst; auto.
Qed.

Ltac oblivious_sql := intros s s' E; simpl; rewrite E; auto.

Section Oblivious.

Variable env : Env.

Lemma oblivious_Begin (t : Transactor) : oblivious (Begin env t).
Proof.
  unfold Begin. apply oblivious_bind; [apply oblivious_observe|intros _].
  destruct t; simpl; [oblivious_sql | apply oblivious_ret | apply oblivious_ret].
Qed.

Lemma oblivious_Exec t q : oblivious (Exec env t q).
Proof.
  unfold Exec. apply oblivious_bind; [apply oblivious_observe|intros _].
  destruct t; oblivious_sql.
Qed.

Lemma oblivious_Commit t : oblivious (Commit env t).
Proof.
  unfold Commit. apply oblivious_bind; [apply oblivious_observe|intros _].
  destruct t; [apply oblivious_ret | oblivious_sql | apply oblivious_ret].
Qed.

Lemma oblivious_Rollback t : oblivious (Rollback env t).
Proof.
  unfold Rollback. apply oblivious_bind; [apply oblivious_observe|intros _].
  destruct t; [apply oblivious_ret | oblivious_sql | oblivious_sql].
Qed.

Lemma oblivious_guarded_action t action :
  oblivious (action t) -> oblivious (guarded_action env t action).
Proof.
  intros Ha. unfold guarded_action. apply oblivious_with_deferred.
  - apply oblivious_bind; [exact Ha|]. intros [e|].
    + apply oblivious_bind; [apply oblivious_Rollback|intros _; apply oblivious_ret].
    + apply oblivious_Commit.
  - intros [v|]; [|apply oblivious_ret].
    apply oblivious_bind; [apply oblivious_Rollback|intros _; apply oblivious_go_panic].
Qed.

Lemma oblivious_Transaction (t : Transactor) action :
  (forall w, oblivious (action w)) -> oblivious (Transaction env t action).
Proof.
  intros Ha. unfold Transaction.
  apply oblivious_bind; [apply oblivious_Begin|]. intros r.
  destruct (snd r); [apply oblivious_ret|].
  destruct t; apply oblivious_guarded_action; apply Ha.
Qed.

Lemma oblivious_run script : forall t, oblivious (run env script t).
Proof.
  induction script as [e|v|q k IH|k IH|k IH|k IH|inner IHi k IH];
    intros t; simpl.
  - apply oblivious_ret.
  - apply oblivious_go_panic.
  - apply oblivious_bind; [apply oblivious_Exec | intros e; apply IH].
  - apply oblivious_bind; [apply oblivious_Begin | intros r; apply IH].
  - apply oblivious_bind; [apply oblivious_Commit | intros e; apply IH].
  - apply oblivious_bind; [apply oblivious_Rollback | intros e; apply IH].
  - apply oblivious_bind; [| intros e; apply IH].
    apply oblivious_Transaction. exact IHi.
Qed.

End Oblivious.

(** X1. Wrapping a [*sql.DB] with [NewTransactor] and calling [Transaction]
    on the wrapper gives the caller the same result, and the database the
    same calls, as calling [Transaction] on the [*sql.DB] itself, for every
    action that works through the Transactor it is given. *)
Theorem wrap_pool_then_Transaction env d script s :
  fst (wrap_then_Transaction env (E_sqlDB d) (run env script) s) =
    fst (Transaction env (B_sqlDB d) (run env script) s) /\
  phys (snd (wrap_then_Transaction env (E_sqlDB d) (run env script) s)) =
    phys (snd (Transaction env (B_sqlDB d) (run env script) s)).
Proof.
  change (wrap_then_Transaction env (E_sqlDB d) (run env script) s)
    with (Transaction env (dbTransactor d) (run env script) s).
  rewrite (Transaction_on_pool env (dbTransactor d) d _ s eq_refl).
  rewrite (Transaction_on_pool env (B_sqlDB d) d _ s eq_refl).
  destruct (snd (sql_DB_Begin_result env d (phys s))); [simpl; auto|].
  apply oblivious_guarded_action; [apply oblivious_run | reflexivity].
Qed.

(** ** Scopes nested to a depth *)

Lemma Transaction_on_pool_begun env db d tx action s :
  pool_of db = Some d ->
  sql_DB_Begin_result env d (phys s) = (tx, None) ->
  Transaction env db action s =
  guarded_action env (nestableTransactor tx) action
    (mkState (phys s ++ [DB_Begin d tx None]) (calls s ++ [Call_Begin db])).
Proof.
  intros Hd Hb. pose proof (Transaction_on_pool env db d action s Hd) as T.
  simpl in T. rewrite Hb in T. exact T.
Qed.

Lemma run_S_Transaction env inner k t s :
  run env (S_Transaction inner k) t s =
  match Transaction env t (run env inner) s with
  | (Returned e, s') => run env (k e) t s'
  | (Panicked r, s') => (Panicked r, s')
  end.
Proof. reflexivity. Qed.

Section Nesting.

Variable env : Env.

(** A leaf that fails at once, with an error or with a panic whose value is
    not nil: each of the [n] scopes around it rolls back and passes the
    failure on. *)
Lemma run_nest_failing leaf o tx :
  (forall t s, run env leaf t s = (o, s)) ->
  (exists e, o = Returned (Some e)) \/ (exists v, o = Panicked (Some v)) ->
  forall n t s, held t = Some tx ->
    fst (run env (nest n leaf) t s) = o /\
    exists l, phys (snd (run env (nest n leaf) t s)) = phys s ++ l /\
              List.length l = n /\ forallb (rollback_of tx) l = true.
Proof.
  intros Hleaf Ho. induction n as [|n IH]; intros t s H.
  - simpl nest. rewrite Hleaf. split; [reflexivity|].
    exists []. simpl. rewrite app_nil_r. auto.
  - change (nest (S n) leaf) with (S_Transaction (nest n leaf) S_return).
    rewrite run_S_Transaction, (Transaction_on_wrapper env t tx _ s H).
    set (s0 := mkState (phys s) (calls s ++ [Call_Begin t])).
    destruct (IH (nestedTransactor tx) s0 eq_refl) as [F [l [E [L R]]]].
    destruct (run env (nest n leaf) (nestedTransactor tx) s0) as [o' s2] eqn:Run.
    simpl in F, E. subst o'.
    assert (Tail : forallb (rollback_of tx)
                     (l ++ [Tx_Rollback tx
                              (sql_Tx_Rollback_result env tx (phys s2))]) = true)
      by (rewrite forallb_app, R; simpl; now rewrite Nat.eqb_refl).
    destruct Ho as [[e ->] | [v ->]].
    + rewrite (guarded_action_error env (nestedTransactor tx) tx _ s0 e s2
                 eq_refl Run).
      simpl. split; [reflexivity|].
      exists (l ++ [Tx_Rollback tx (sql_Tx_Rollback_result env tx (phys s2))]).
      split; [rewrite E, <- app_assoc; reflexivity|].
      split; [rewrite length_app; simpl; lia | exact Tail].
    + rewrite (guarded_action_panic env (nestedTransactor tx) tx _ s0 v s2
                 eq_refl Run).
      simpl. split; [reflexivity|].
      exists (l ++ [Tx_Rollback tx (sql_Tx_Rollback_result env tx (phys s2))]).
      split; [rewrite E, <- app_assoc; reflexivity|].
      split; [rewrite length_app; simpl; lia | exact Tail].
Qed.

(** A leaf that returns nil without a call on the database: so do the [n]
    scopes around it, whose commits are those of Nested wrappers. *)
Lemma run_nest_quiet leaf tx :
  (forall t s, held t = Some tx ->
     fst (run env leaf t s) = Returned None /\
     phys (snd (run env leaf t s)) = phys s) ->
  forall n t s, held t = Some tx ->
    fst (run env (nest n leaf) t s) = Returned None /\
    phys (snd (run env (nest n leaf) t s)) = phys s.
Proof.
  intros Hleaf. induction n as [|n IH]; intros t s H.
  - apply Hleaf, H.
  - change (nest (S n) leaf) with (S_Transaction (nest n leaf) S_return).
    rewrite run_S_Transaction, (Transaction_on_wrapper env t tx _ s H).
    set (s0 := mkState (phys s) (calls s ++ [Call_Begin t])).
    destruct (IH (nestedTransactor tx) s0 eq_refl) as [F E].
    destruct (run env (nest n leaf) (nestedTransactor tx) s0) as [o' s2] eqn:Run.
    simpl in F, E. subst o'.
    rewrite (guarded_action_success env (nestedTransactor tx) _ s0 s2 Run).
    simpl. auto.
Qed.

Lemma nest_inner n leaf :
  nest (S n) leaf = nest n (S_Transaction leaf S_return).
Proof.
  induction n as [|n IH]; [reflexivity|].
  change (nest (S (S n)) leaf) with (S_Transaction (nest (S n) leaf) S_return).
  rewrite IH. reflexivity.
Qed.

End Nesting.

(** X2. An error returned below [n] nested scopes of an outermost scope
    reaches the caller of the outermost [Transaction] unchanged; on the way
    every scope rolls back, so the one transaction receives [n + 1]
    rollback calls after its [Begin], and nothing else reaches the
    database: no commit. *)
Theorem nested_error_rolls_back_at_every_level env db d tx n e s :
  pool_of db = Some d ->
  sql_DB_Begin_result env d (phys s) = (tx, None) ->
  fst (Transaction env db (run env (nest n (S_return (Some e)))) s) =
    Returned (Some e) /\
  exists l,
    phys (snd (Transaction env db (run env (nest n (S_return (Some e)))) s)) =
      phys s ++ DB_Begin d tx None :: l /\
    List.length l = S n /\ forallb (rollback_of tx) l = true.
Proof.
  intros Hd Hb. rewrite (Transaction_on_pool_begun env db d tx _ s Hd Hb).
  set (s1 := mkState (phys s ++ [DB_Begin d tx None]) (calls s ++ [Call_Begin db])).
  destruct (run_nest_failing env (S_return (Some e)) (Returned (Some e)) tx
              (fun _ _ => eq_refl) (or_introl (ex_intro _ e eq_refl))
              n (nestableTransactor tx) s1 eq_refl) as [F [l [E [L R]]]].
  destruct (run env (nest n (S_return (Some e))) (nestableTransactor tx) s1)
    as [o s2] eqn:Run.
  simpl in F, E. subst o.
  rewrite (guarded_action_error env (nestableTransactor tx) tx _ s1 e s2
             eq_refl Run).
  simpl. split; [reflexivity|].
  exists (l ++ [Tx_Rollback tx (sql_Tx_Rollback_result env tx (phys s2))]).
  split; [rewrite E; simpl; rewrite <- !app_assoc; reflexivity|].
  split; [rewrite length_app; simpl; lia|].
  rewrite forallb_app, R. simpl. now rewrite Nat.eqb_refl.
Qed.

Lemma nested_error_rolls_back_at_every_level_witness :
  fst (Transaction (healthy true) (B_sqlDB 0)
         (run (healthy true) (nest 2 (S_return (Some "boom")))) empty) =
    Returned (Some "boom") /\
  exists l,
    phys (snd (Transaction (healthy true) (B_sqlDB 0)
                 (run (healthy true) (nest 2 (S_return (Some "boom")))) empty)) =
      phys empty ++ DB_Begin 0 1 None :: l /\
    List.length l = 3 /\ forallb (rollback_of 1) l = true.
Proof.
  apply (nested_error_rolls_back_at_every_level (healthy true) (B_sqlDB 0)
           0 1 2 "boom" empty); reflexivity.
Defined.

(** X3. A success below [n] nested scopes of an outermost scope commits the
    transaction once: the database receives the [Begin] and one [Commit],
    issued by the outermost scope, and the caller receives what that commit
    returned. *)
Theorem nested_success_commits_once env db d tx n s :
  pool_of db = Some d ->
  sql_DB_Begin_result env d (phys s) = (tx, None) ->
  let r := sql_Tx_Commit_result env tx (phys s ++ [DB_Begin d tx None]) in
  fst (Transaction env db (run env (nest n (S_return None))) s) = Returned r /\
  phys (snd (Transaction env db (run env (nest n (S_return None))) s)) =
    phys s ++ [DB_Begin d tx None; Tx_Commit tx r].
Proof.
  intros Hd Hb r. rewrite (Transaction_on_pool_begun env db d tx _ s Hd Hb).
  set (s1 := mkState (phys s ++ [DB_Begin d tx None]) (calls s ++ [Call_Begin db])).
  destruct (run_nest_quiet env (S_return None) tx
              (fun _ _ _ => conj eq_refl eq_refl)
              n (nestableTransactor tx) s1 eq_refl) as [F E].
  destruct (run env (nest n (S_return None)) (nestableTransactor tx) s1)
    as [o s2] eqn:Run.
  simpl in F, E. subst o.
  rewrite (guarded_action_success env (nestableTransactor tx) _ s1 s2 Run).
  unfold Commit, bind, observe, sql_Tx_Commit. simpl. rewrite E.
  unfold r. simpl. rewrite <- app_assoc. auto.
Qed.

Lemma nested_success_commits_once_witness :
  fst (Transaction (healthy true) (dbTransactor 0)
         (run (healthy true) (nest 3 (S_return None))) empty) = Returned None /\
  phys (snd (Transaction (healthy true) (dbTransactor 0)
               (run (healthy true) (nest 3 (S_return None))) empty)) =
    phys empty ++ [DB_Begin 0 1 None; Tx_Commit 1 None].
Proof.
  apply (nested_success_commits_once (healthy true) (dbTransactor 0)
           0 1 3 empty); reflexivity.
Defined.

(** X4. A panic with a value that is not nil, raised below [n] nested
    scopes of an outermost scope, leaves the outermost [Transaction] with
    that same value; every scope rolls back on the way, so the transaction
    receives [n + 1] rollback calls after its [Begin], and no commit. *)
Theorem nested_panic_rolls_back_at_every_level env db d tx n v s :
  pool_of db = Some d ->
  sql_DB_Begin_result env d (phys s) = (tx, None) ->
  fst (Transaction env db (run env (nest n (S_panic (Some v)))) s) =
    Panicked (Some v) /\
  exists l,
    phys (snd (Transaction env db (run env (nest n (S_panic (Some v)))) s)) =
      phys s ++ DB_Begin d tx None :: l /\
    List.length l = S n /\ forallb (rollback_of tx) l = true.
Proof.
  intros Hd Hb. rewrite (Transaction_on_pool_begun env db d tx _ s Hd Hb).
  set (s1 := mkState (phys s ++ [DB_Begin d tx None]) (calls s ++ [Call_Begin db])).
  destruct (run_nest_failing env (S_panic (Some v)) (Panicked (Some v)) tx
              (fun _ _ => eq_refl) (or_intror (ex_intro _ v eq_refl))
              n (nestableTransactor tx) s1 eq_refl) as [F [l [E [L R]]]].
  destruct (run env (nest n (S_panic (Some v))) (nestableTransactor tx) s1)
    as [o s2] eqn:Run.
  simpl in F, E. subst o.
  rewrite (guarded_action_panic env (nestableTransactor tx) tx _ s1 v s2
             eq_refl Run).
  simpl. split; [reflexivity|].
  exists (l ++ [Tx_Rollback tx (sql_Tx_Rollback_result env tx (phys s2))]).
  split; [rewrite E; simpl; rewrite <- !app_assoc; reflexivity|].
  split; [rewrite length_app; simpl; lia|].
  rewrite forallb_app, R. simpl. now rewrite Nat.eqb_refl.
Qed.

Lemma nested_panic_rolls_back_at_every_level_witness :
  fst (Transaction (healthy false) (B_sqlDB 0)
         (run (healthy false) (nest 1 (S_panic (Some (V_string "bad"))))) empty) =
    Panicked (Some (V_string "bad")) /\
  exists l,
    phys (snd (Transaction (healthy false) (B_sqlDB 0)
                 (run (healthy false) (nest 1 (S_panic (Some (V_string "bad")))))
                 empty)) =
      phys empty ++ DB_Begin 0 1 None :: l /\
    List.length l = 2 /\ forallb (rollback_of 1) l = true.
Proof.
  apply (nested_panic_rolls_back_at_every_level (healthy false) (B_sqlDB 0)
           0 1 1 (V_string "bad") empty); reflexivity.
Defined.

(** X5. On a Go that keeps nil as the panic value, a [panic(nil)] raised in
    a nested scope (below [n + 1] scopes inside the outermost one) is
    stopped by the innermost scope, which returns nil; the scopes around it
    see a success, and the outermost scope commits the transaction. *)
Theorem nested_nil_panic_is_committed env db d tx n s :
  panicnil env = true ->
  pool_of db = Some d ->
  sql_DB_Begin_result env d (phys s) = (tx, None) ->
  let r := sql_Tx_Commit_result env tx (phys s ++ [DB_Begin d tx None]) in
  fst (Transaction env db (run env (nest (S n) (S_panic None))) s) =
    Returned r /\
  phys (snd (Transaction env db (run env (nest (S n) (S_panic None))) s)) =
    phys s ++ [DB_Begin d tx None; Tx_Commit tx r].
Proof.
  intros Hp Hd Hb r. rewrite (Transaction_on_pool_begun env db d tx _ s Hd Hb).
  set (s1 := mkState (phys s ++ [DB_Begin d tx None]) (calls s ++ [Call_Begin db])).
  rewrite nest_inner.
  assert (Leaf : forall t s, held t = Some tx ->
            fst (run env (S_Transaction (S_panic None) S_return) t s) =
              Returned None /\
            phys (snd (run env (S_Transaction (S_panic None) S_return) t s)) =
              phys s).
  { intros t s0 H.
    rewrite run_S_Transaction, (Transaction_on_wrapper env t tx _ s0 H).
    rewrite (guarded_action_nil_panic env (nestedTransactor tx) _ _
               (mkState (phys s0) (calls s0 ++ [Call_Begin t]))).
    - simpl. auto.
    - simpl. unfold go_panic. rewrite Hp. reflexivity. }
  destruct (run_nest_quiet env _ tx Leaf n (nestableTransactor tx) s1 eq_refl)
    as [F E].
  destruct (run env (nest n (S_Transaction (S_panic None) S_return))
              (nestableTransactor tx) s1) as [o s2] eqn:Run.
  simpl in F, E. subst o.
  rewrite (guarded_action_success env (nestableTransactor tx) _ s1 s2 Run).
  unfold Commit, bind, observe, sql_Tx_Commit. simpl. rewrite E.
  unfold r. simpl. rewrite <- app_assoc. auto.
Qed.

Lemma nested_nil_panic_is_committed_witness :
  fst (Transaction (healthy true) (B_sqlDB 0)
         (run (healthy true) (nest 1 (S_panic None))) empty) = Returned None /\
  phys (snd (Transaction (healthy true) (B_sqlDB 0)
               (run (healthy true) (nest 1 (S_panic None))) empty)) =
    phys empty ++ [DB_Begin 0 1 None; Tx_Commit 1 None].
Proof.
  apply (nested_nil_panic_is_committed (healthy true) (B_sqlDB 0) 0 1 0 empty);
    reflexivity.
Defined.

(** X6. Wrapping a [*sql.Tx] the caller already holds with [NewTransactor]
    and calling [Transaction] on the wrapper begins no transaction and
    commits none, whatever the action does through the Transactor it is
    given: the only calls that reach the database are statements and
    rollbacks on that [*sql.Tx].  Committing stays with the caller. *)
Theorem wrap_open_tx_then_Transaction env tx script s :
  (exists l,
     phys (snd (wrap_then_Transaction env (E_sqlTx tx) (run env script) s)) =
       phys s ++ l /\
     forallb (event_of tx false) l = true) /\
  count is_begin
    (phys (snd (wrap_then_Transaction env (E_sqlTx tx) (run env script) s))) =
    count is_begin (phys s) /\
  count is_commit
    (phys (snd (wrap_then_Transaction env (E_sqlTx tx) (run env script) s))) =
    count is_commit (phys s).
Proof.
  change (wrap_then_Transaction env (E_sqlTx tx) (run env script) s)
    with (Transaction env (nestableTransactor tx) (run env script) s).
  assert (Em : emits (event_of tx false)
                 (Transaction env (nestableTransactor tx) (run env script))).
  { apply emits_Transaction_inner with (tx := tx); [reflexivity|].
    apply (emits_run env script (nestedTransactor tx) tx eq_refl). }
  split; [apply Em|]. split.
  - apply (emits_count is_begin (event_of tx false));
      [apply event_of_not_begin | exact Em].
  - apply (emits_count is_commit (event_of tx false));
      [apply event_of_not_commit | exact Em].
Qed.

(** ** Panics that leave [Transaction] *)

Lemma with_deferred_panicked {A} (zero : A) handler body s r s' :
  with_deferred zero handler body s = (Panicked r, s') ->
  (exists a s1, body s = (Returned a, s1) /\ handler None s1 = (Panicked r, s')) \/
  (exists r0 s1, body s = (Panicked r0, s1) /\ handler r0 s1 = (Panicked r, s')).
Proof.
  unfold with_deferred.
  destruct (body s) as [[a|r0] s1].
  - destruct (handler None s1) as [[u|x] s2] eqn:Hh; intros [= <- <-].
    left. eauto.
  - destruct (handler r0 s1) as [[u|x] s2] eqn:Hh; intros [= <- <-].
    right. eauto.
Qed.

(** The body of [guarded_action] panics only when the action does: the
    commit and the rollback that follow the action return. *)
Lemma guarded_body_panicked env w (action : Transactor -> M error) s r0 s1 :
  (err <- action w ;;
   match err with
   | Some e => Rollback env w ;;; ret (Some e)
   | None => Commit env w
   end) s = (Panicked r0, s1) ->
  action w s = (Panicked r0, s1).
Proof.
  unfold bind at 1. destruct (action w s) as [[[e|]|x] s2].
  - destruct w; intros [=].
  - destruct w; intros [=].
  - auto.
Qed.

Lemma guarded_action_panicked env w tx action s1 r s' :
  held w = Some tx ->
  guarded_action env w action s1 = (Panicked r, s') ->
  exists v s2,
    r = Some v /\
    action w s1 = (Panicked (Some v), s2) /\
    s' = mkState
           (phys s2 ++
              [Tx_Rollback tx (sql_Tx_Rollback_result env tx (phys s2))])
           (calls s2 ++ [Call_Rollback w]).
Proof.
  intros H. unfold guarded_action. intros Hp.
  apply with_deferred_panicked in Hp.
  destruct Hp as [[a [s2 [_ Hh]]] | [r0 [s2 [Hbody Hh]]]].
  - discriminate Hh.
  - apply guarded_body_panicked in Hbody.
    destruct r0 as [v|]; [|discriminate Hh].
    exists v, s2.
    unfold bind in Hh. rewrite (Rollback_held env w tx s2 H) in Hh.
    simpl in Hh. injection Hh as <- <-. auto.
Qed.

(** X7. Whenever [Transaction] ends in a panic after a [Begin] that
    succeeded, the action panicked with that very value, the value is not
    nil, and the last thing [Transaction] did was one [Rollback] on the
    wrapper, which reached the transaction.  This holds for every action
    and every behaviour of the database. *)
Theorem panic_out_of_Transaction env db action s impl s1 r s' :
  Begin env db s = (Returned (impl, None), s1) ->
  Transaction env db action s = (Panicked r, s') ->
  exists v s2,
    r = Some v /\
    action (wrapper_for db impl) s1 = (Panicked (Some v), s2) /\
    s' = mkState
           (phys s2 ++
              [Tx_Rollback impl (sql_Tx_Rollback_result env impl (phys s2))])
           (calls s2 ++ [Call_Rollback (wrapper_for db impl)]).
Proof.
  intros Hb. rewrite (Transaction_after_Begin env db action s impl None s1 Hb).
  apply guarded_action_panicked, held_wrapper_for.
Qed.

Lemma panic_out_of_Transaction_witness :
  exists v s2,
    Some (V_string "bad") = Some v /\
    run broken (S_Exec "UPDATE" (fun _ => S_panic (Some (V_string "bad"))))
      (wrapper_for (nestedTransactor 2) 2)
      (mkState [] [Call_Begin (nestedTransactor 2)]) =
      (Panicked (Some v), s2) /\
    mkState [Tx_Exec 2 "UPDATE" (Some "driver: bad connection");
             Tx_Rollback 2 (Some "driver: bad connection")]
            [Call_Begin (nestedTransactor 2);
             Call_Exec (nestedTransactor 2) "UPDATE";
             Call_Rollback (nestedTransactor 2)] =
    mkState
      (phys s2 ++ [Tx_Rollback 2 (sql_Tx_Rollback_result broken 2 (phys s2))])
      (calls s2 ++ [Call_Rollback (wrapper_for (nestedTransactor 2) 2)]).
Proof.
  apply (panic_out_of_Transaction broken (nestedTransactor 2)
           (run broken (S_Exec "UPDATE" (fun _ => S_panic (Some (V_string "bad")))))
           empty 2 (mkState [] [Call_Begin (nestedTransactor 2)])
           (Some (V_string "bad")));
    reflexivity.
Defined.

(** ** Actions that cannot panic with nil *)

Section NoNilPanic.

Variable env : Env.

Lemma returns_Begin (t : Transactor) : returns (Begin env t).
Proof. intros s. destruct t; eexists; eexists; reflexivity. Qed.

Lemma returns_Exec t q : returns (Exec env t q).
Proof. intros s. destruct t; eexists; eexists; reflexivity. Qed.

Lemma returns_Commit t : returns (Commit env t).
Proof. intros s. destruct t; eexists; eexists; reflexivity. Qed.

Lemma returns_Rollback t : returns (Rollback env t).
Proof. intros s. destruct t; eexists; eexists; reflexivity. Qed.

(** No nil panic leaves [Transaction] called on a wrapper. *)
Lemma Transaction_never_nil_panic (t : Transactor) action s s' :
  Transaction env t action s <> (Panicked None, s').
Proof.
  destruct (returns_Begin t s) as [[impl [e|]] [s1 Hb]].
  - rewrite (Transaction_after_Begin env t action s impl (Some e) s1 Hb).
    discriminate.
  - rewrite (Transaction_after_Begin env t action s impl None s1 Hb).
    intros Hp.
    destruct (guarded_action_panicked env _ impl action s1 None s'
                (held_wrapper_for t impl) Hp) as [v [s2 [Hv _]]].
    discriminate Hv.
Qed.

Hypothesis go_1_21 : panicnil env = false.

Lemma run_never_nil_panic script : forall t s s',
  run env script t s <> (Panicked None, s').
Proof.
  induction script as [e|v|q k IH|k IH|k IH|k IH|inner IHi k IH];
    intros t s s'; cbn [run].
  - discriminate.
  - unfold go_panic. destruct v; [discriminate|].
    rewrite go_1_21. discriminate.
  - unfold bind. destruct (returns_Exec t q s) as [a [s1 E]]. rewrite E.
    apply IH.
  - unfold bind. destruct (returns_Begin t s) as [a [s1 E]]. rewrite E.
    apply IH.
  - unfold bind. destruct (returns_Commit t s) as [a [s1 E]]. rewrite E.
    apply IH.
  - unfold bind. destruct (returns_Rollback t s) as [a [s1 E]]. rewrite E.
    apply IH.
  - unfold bind.
    destruct (Transaction env t (run env inner) s) as [[e|r] s1] eqn:T.
    + apply IH.
    + intros [= -> ->]. exact (Transaction_never_nil_panic t _ s s' T).
Qed.

End NoNilPanic.

(** X8. On a Go that turns [panic(nil)] into a runtime error (1.21 and
    later), an outermost scope whose [Begin] succeeded and whose action
    works through the Transactor it is given returns a nil error only after
    a commit of its transaction that returned nil, and that commit is the
    last call the database received. *)
Theorem nil_result_means_committed env db d tx script s s' :
  panicnil env = false ->
  pool_of db = Some d ->
  sql_DB_Begin_result env d (phys s) = (tx, None) ->
  Transaction env db (run env script) s = (Returned None, s') ->
  exists h, phys s' = h ++ [Tx_Commit tx None].
Proof.
  intros Hp Hd Hb. rewrite (Transaction_on_pool_begun env db d tx _ s Hd Hb).
  set (s1 := mkState (phys s ++ [DB_Begin d tx None]) (calls s ++ [Call_Begin db])).
  destruct (run env script (nestableTransactor tx) s1)
    as [[[e|]|[v|]] s2] eqn:Run.
  - rewrite (guarded_action_error env (nestableTransactor tx) tx _ s1 e s2
               eq_refl Run). discriminate.
  - rewrite (guarded_action_success env (nestableTransactor tx) _ s1 s2 Run).
    unfold Commit, bind, observe, sql_Tx_Commit. simpl.
    intros [= Hr <-]. simpl. exists (phys s2). now rewrite Hr.
  - rewrite (guarded_action_panic env (nestableTransactor tx) tx _ s1 v s2
               eq_refl Run). discriminate.
  - destruct (run_never_nil_panic env Hp script _ _ _ Run).
Qed.

Lemma nil_result_means_committed_witness :
  exists h,
    phys (mkState [DB_Begin 0 1 None; Tx_Exec 1 "INSERT" None; Tx_Commit 1 None]
                  [Call_Begin (B_sqlDB 0);
                   Call_Exec (nestableTransactor 1) "INSERT";
                   Call_Commit (nestableTransactor 1)]) =
    h ++ [Tx_Commit 1 None].
Proof.
  apply (nil_result_means_committed (healthy false) (B_sqlDB 0) 0 1
           (S_Exec "INSERT" (fun e => S_return e)) empty);
    reflexivity.
Defined.

(** X9. On a Go that turns [panic(nil)] into a runtime error (1.21 and
    later), an outermost scope whose [Begin] succeeded and whose action
    works through the Transactor it is given leaves no transaction open:
    whether the action returns nil, returns an error or panics, the last
    call the database receives is a commit or a rollback of the transaction
    that [Begin] returned. *)
Theorem no_transaction_left_open env db d tx script s :
  panicnil env = false ->
  pool_of db = Some d ->
  sql_DB_Begin_result env d (phys s) = (tx, None) ->
  (exists h r,
     phys (snd (Transaction env db (run env script) s)) = h ++ [Tx_Commit tx r] \/
     phys (snd (Transaction env db (run env script) s)) = h ++ [Tx_Rollback tx r]) /\
  tx_open tx (phys (snd (Transaction env db (run env script) s))) = false.
Proof.
  intros Hp Hd Hb. rewrite (Transaction_on_pool_begun env db d tx _ s Hd Hb).
  set (s1 := mkState (phys s ++ [DB_Begin d tx None]) (calls s ++ [Call_Begin db])).
  destruct (run env script (nestableTransactor tx) s1)
    as [[[e|]|[v|]] s2] eqn:Run.
  - rewrite (guarded_action_error env (nestableTransactor tx) tx _ s1 e s2
               eq_refl Run). simpl. split.
    + eexists; eexists; right; reflexivity.
    + rewrite tx_open_snoc. simpl. now rewrite Nat.eqb_refl.
  - rewrite (guarded_action_success env (nestableTransactor tx) _ s1 s2 Run).
    simpl. split.
    + eexists; eexists; left; reflexivity.
    + rewrite tx_open_snoc. simpl. now rewrite Nat.eqb_refl.
  - rewrite (guarded_action_panic env (nestableTransactor tx) tx _ s1 v s2
               eq_refl Run). simpl. split.
    + eexists; eexists; right; reflexivity.
    + rewrite tx_open_snoc. simpl. now rewrite Nat.eqb_refl.
  - destruct (run_never_nil_panic env Hp script _ _ _ Run).
Qed.

Lemma no_transaction_left_open_witness :
  (exists h r,
     phys (snd (Transaction (healthy false) (dbTransactor 0)
                  (run (healthy false) (nest 2 (S_panic None))) empty)) =
       h ++ [Tx_Commit 1 r] \/
     phys (snd (Transaction (healthy false) (dbTransactor 0)
                  (run (healthy false) (nest 2 (S_panic None))) empty)) =
       h ++ [Tx_Rollback 1 r]) /\
  tx_open 1
    (phys (snd (Transaction (healthy false) (dbTransactor 0)
                  (run (healthy false) (nest 2 (S_panic None))) empty))) = false.
Proof.
  apply (no_transaction_left_open (healthy false) (dbTransactor 0) 0 1
           (nest 2 (S_panic None)) empty); reflexivity.
Defined.

(** ** [NewTransactor] inside an action *)

(** X10. An action that passes the Transactor it was given to
    [NewTransactor] panics in an outermost scope, where that Transactor is
    a Nestable wrapper: [Transaction] rolls the new transaction back and
    the panic "unsupported transactor type: *sx.nestableTransactor" reaches
    the caller.  In an inner scope the Transactor is a Nested wrapper,
    [NewTransactor] hands it back, and the action runs as if it had not
    called the factory. *)
Theorem NewTransactor_inside_action env db d tx (k : Transactor -> M error) s :
  pool_of db = Some d ->
  sql_DB_Begin_result env d (phys s) = (tx, None) ->
  let action := fun t : Transactor => t' <- NewTransactor env t ;; k t' in
  let h := phys s ++ [DB_Begin d tx None] in
  Transaction env db action s =
    (Panicked
       (Some (V_string "unsupported transactor type: *sx.nestableTransactor")),
     mkState (h ++ [Tx_Rollback tx (sql_Tx_Rollback_result env tx h)])
             (calls s ++ [Call_Begin db; Call_Rollback (nestableTransactor tx)])) /\
  (forall tx' s0,
      Transaction env (nestableTransactor tx') action s0 =
      Transaction env (nestableTransactor tx') k s0) /\
  (forall tx' s0,
      Transaction env (nestedTransactor tx') action s0 =
      Transaction env (nestedTransactor tx') k s0).
Proof.
  intros Hd Hb action h. split; [|split; intros; reflexivity].
  rewrite (Transaction_on_pool_begun env db d tx _ s Hd Hb).
  refine (eq_trans
            (guarded_action_panic env (nestableTransactor tx) tx action _
               (V_string "unsupported transactor type: *sx.nestableTransactor")
               _ eq_refl eq_refl) _).
  subst h. simpl. rewrite <- !app_assoc. reflexivity.
Qed.

Lemma NewTransactor_inside_action_witness :
  let h := phys empty ++ [DB_Begin 0 1 None] in
  Transaction (healthy true) (dbTransactor 0)
    (fun t : Transactor =>
       t' <- NewTransactor (healthy true) t ;; Commit (healthy true) t')
    empty =
    (Panicked
       (Some (V_string "unsupported transactor type: *sx.nestableTransactor")),
     mkState (h ++ [Tx_Rollback 1 (sql_Tx_Rollback_result (healthy true) 1 h)])
             (calls empty ++
                [Call_Begin (dbTransactor 0);
                 Call_Rollback (nestableTransactor 1)])) /\
  (forall tx' s0,
      Transaction (healthy true) (nestableTransactor tx')
        (fun t : Transactor =>
       t' <- NewTransactor (healthy true) t ;; Commit (healthy true) t')
        s0 =
      Transaction (healthy true) (nestableTransactor tx')
        (Commit (healthy true)) s0) /\
  (forall tx' s0,
      Transaction (healthy true) (nestedTransactor tx')
        (fun t : Transactor =>
       t' <- NewTransactor (healthy true) t ;; Commit (healthy true) t')
        s0 =
      Transaction (healthy true) (nestedTransactor tx')
        (Commit (healthy true)) s0).
Proof.
  apply (NewTransactor_inside_action (healthy true) (dbTransactor 0) 0 1
           (Commit (healthy true)) empty); reflexivity.
Defined.

(** ** An inner failure that the outer action ignores *)

(** X11. [Transaction] keeps no record of a rollback.  When the action of
    an outermost scope runs an inner scope that fails, drops the error and
    returns nil, the inner scope has rolled the transaction back and the
    outermost scope then calls [Commit] on that same transaction, returning
    whatever that commit returns. *)
Theorem ignored_inner_failure_is_committed env db d tx inner e s s2 :
  pool_of db = Some d ->
  sql_DB_Begin_result env d (phys s) = (tx, None) ->
  run env inner (nestedTransactor tx)
    (mkState (phys s ++ [DB_Begin d tx None])
             (calls s ++ [Call_Begin db; Call_Begin (nestableTransactor tx)])) =
    (Returned (Some e), s2) ->
  let h1 := phys s2 ++ [Tx_Rollback tx (sql_Tx_Rollback_result env tx (phys s2))] in
  let rc := sql_Tx_Commit_result env tx h1 in
  Transaction env db
    (run env (S_Transaction inner (fun _ => S_return None))) s =
  (Returned rc,
   mkState (h1 ++ [Tx_Commit tx rc])
           (calls s2 ++ [Call_Rollback (nestedTransactor tx);
                         Call_Commit (nestableTransactor tx)])).
Proof.
  intros Hd Hb Hin h1 rc.
  rewrite (Transaction_on_pool_begun env db d tx _ s Hd Hb).
  set (s1 := mkState (phys s ++ [DB_Begin d tx None]) (calls s ++ [Call_Begin db])).
  assert (Act : run env (S_Transaction inner (fun _ => S_return None))
                  (nestableTransactor tx) s1 =
                (Returned None,
                 mkState h1 (calls s2 ++ [Call_Rollback (nestedTransactor tx)]))).
  { rewrite run_S_Transaction.
    rewrite (Transaction_on_wrapper env (nestableTransactor tx) tx _ s1 eq_refl).
    unfold s1. simpl calls. simpl phys. rewrite <- app_assoc. simpl app.
    rewrite (guarded_action_error env (nestedTransactor tx) tx _ _ e s2
               eq_refl Hin).
    reflexivity. }
  rewrite (guarded_action_success env (nestableTransactor tx) _ s1 _ Act).
  unfold Commit, bind, observe, sql_Tx_Commit. simpl.
  rewrite <- app_assoc. reflexivity.
Qed.

Lemma ignored_inner_failure_is_committed_witness :
  Transaction (healthy true) (B_sqlDB 0)
    (run (healthy true)
       (S_Transaction (S_return (Some "boom")) (fun _ => S_return None))) empty =
  (Returned None,
   mkState ([DB_Begin 0 1 None; Tx_Rollback 1 None] ++ [Tx_Commit 1 None])
           ([Call_Begin (B_sqlDB 0); Call_Begin (nestableTransactor 1)] ++
            [Call_Rollback (nestedTransactor 1);
             Call_Commit (nestableTransactor 1)])).
Proof.
  apply (ignored_inner_failure_is_committed (healthy true) (B_sqlDB 0) 0 1
           (S_return (Some "boom")) "boom" empty
           (mkState [DB_Begin 0 1 None]
                    [Call_Begin (B_sqlDB 0); Call_Begin (nestableTransactor 1)]));
    reflexivity.
Defined.
